(** * serde_either: shape-dispatch decoding of the either-types

    Shallow embedding of [src/src/de.rs], [src/src/se.rs] and
    [src/src/enums.rs].  The decoders work on the serde data model as
    buffered by [serde_value::Value]; a front-end deserializer [D] is
    observed through the only thing the crate asks of it,
    [Value::deserialize(deserializer)], and the payload decoders [S::deserialize]
    are driven through [ValueDeserializer::new(value)]. *)

From Stdlib Require Import ZArith Lia List String Ascii PrimFloat.
Import ListNotations.
Set Warnings "-register-all,-notation-for-abbreviation".
Open Scope string_scope.
Open Scope Z_scope.

(** Rust's [Result]. *)
Inductive result (T E : Type) : Type :=
| Ok (t : T)
| Err (e : E).
Arguments Ok {T E} t.
Arguments Err {T E} e.

Definition map_ok {T U E : Type} (f : T -> U) (r : result T E) : result U E :=
  match r with Ok t => Ok (f t) | Err e => Err e end.

(** The [?] operator: [let x = r?; k x]. *)
Notation "x <-? r ;; k" :=
  (match r with Ok x => k | Err e => Err e end)
  (at level 61, r at next level, right associativity).

(** Rust bytes and text.  A Rust [String] is a UTF-8 byte sequence; it is
    modelled as a Rocq [string], one [ascii] per byte. *)
Definition bytes := list Byte.byte.

(** A Rust [char]: a Unicode scalar value. *)
Definition char := Z.

(** An [f32] or [f64] payload.  [n as f64] on an [f32] is exact, so both are
    kept as the same primitive float. *)
Definition f64 := PrimFloat.float.

(** ** serde_value::Value *)
Module Value.
Inductive Value : Type :=
| Bool (b : bool)
| U8 (n : Z) | U16 (n : Z) | U32 (n : Z) | U64 (n : Z)
| I8 (n : Z) | I16 (n : Z) | I32 (n : Z) | I64 (n : Z)
| F32 (f : f64) | F64 (f : f64)
| Char (c : char)
| String (s : string)
| Unit
| Option (o : option Value)
| Newtype (v : Value)
| Seq (vs : list Value)
| Map (m : list (Value * Value))
| Bytes (b : bytes).
End Value.
Notation Value := Value.Value.

(** ** serde::de::Unexpected *)
Module Unexpected.
Inductive Unexpected : Type :=
| Bool (b : bool)
| Unsigned (n : Z)
| Signed (n : Z)
| Float (f : f64)
| Char (c : char)
| Str (s : string)
| Bytes (b : bytes)
| Unit
| Option
| NewtypeStruct
| Seq
| Map
| Enum
| UnitVariant
| NewtypeVariant
| TupleVariant
| StructVariant
| Other (s : string).
End Unexpected.
Notation Unexpected := Unexpected.Unexpected.

(** [&dyn Expected] is only ever rendered through [Display]: its text. *)
Definition Expected := string.

(** ** serde::de::Error: the constructors the decoders here use.
    [D::Error] is generic, so the error type is a parameter with these
    methods. *)
Class Error (E : Type) := {
  invalid_type : Unexpected -> Expected -> E;
  invalid_value : Unexpected -> Expected -> E;
  invalid_length : Z -> Expected -> E;
  missing_field : string -> E;
  duplicate_field : string -> E;
  custom : string -> E
}.

(** ** [unexpected] (de.rs, lines 11-33) *)
Definition unexpected (value : Value) : Unexpected :=
  match value with
  | Value.Bool b => Unexpected.Bool b
  | Value.U8 n => Unexpected.Unsigned n
  | Value.U16 n => Unexpected.Unsigned n
  | Value.U32 n => Unexpected.Unsigned n
  | Value.U64 n => Unexpected.Unsigned n
  | Value.I8 n => Unexpected.Signed n
  | Value.I16 n => Unexpected.Signed n
  | Value.I32 n => Unexpected.Signed n
  | Value.I64 n => Unexpected.Signed n
  | Value.F32 n => Unexpected.Float n
  | Value.F64 n => Unexpected.Float n
  | Value.Char c => Unexpected.Char c
  | Value.String s => Unexpected.Str s
  | Value.Unit => Unexpected.Unit
  | Value.Option _ => Unexpected.Option
  | Value.Newtype _ => Unexpected.NewtypeStruct
  | Value.Seq _ => Unexpected.Seq
  | Value.Map _ => Unexpected.Map
  | Value.Bytes b => Unexpected.Bytes b
  end.

(** ** UTF-8 (Rust's [core::str::from_utf8] and [char::encode_utf8]) *)

Definition byte_of_Z (z : Z) : Byte.byte :=
  match Byte.of_N (Z.to_N z) with Some b => b | None => Byte.x00 end.

Definition is_cont (b : Z) : bool := (128 <=? b) && (b <=? 191).

Definition in_range (lo hi b : Z) : bool := (lo <=? b) && (b <=? hi).

(** [run_utf8_validation]: the byte-sequence rules of the UTF-8 table
    (RFC 3629), as the standard library checks them. *)
Fixpoint utf8_valid (bs : list Z) : bool :=
  match bs with
  | [] => true
  | b0 :: rest =>
    if b0 <? 128 then utf8_valid rest
    else if in_range 194 223 b0 then
      match rest with
      | b1 :: rest1 => is_cont b1 && utf8_valid rest1
      | _ => false
      end
    else if in_range 224 239 b0 then
      match rest with
      | b1 :: b2 :: rest2 =>
        (if b0 =? 224 then in_range 160 191 b1
         else if b0 =? 237 then in_range 128 159 b1
         else is_cont b1)
        && is_cont b2 && utf8_valid rest2
      | _ => false
      end
    else if in_range 240 244 b0 then
      match rest with
      | b1 :: b2 :: b3 :: rest3 =>
        (if b0 =? 240 then in_range 144 191 b1
         else if b0 =? 244 then in_range 128 143 b1
         else is_cont b1)
        && is_cont b2 && is_cont b3 && utf8_valid rest3
      | _ => false
      end
    else false
  end.

(** [String::from_utf8(bytes)]: [None] stands for the [FromUtf8Error]. *)
Definition from_utf8 (b : bytes) : option string :=
  if utf8_valid (map (fun x => Z.of_N (Byte.to_N x)) b)
  then Some (string_of_list_byte b) else None.

(** [c.encode_utf8(..)] for a scalar value [c]. *)
Definition encode_utf8 (c : char) : string :=
  string_of_list_byte (map byte_of_Z
    (if c <? 128 then [c]
     else if c <? 2048 then
       [192 + Z.shiftr c 6; 128 + Z.land c 63]
     else if c <? 65536 then
       [224 + Z.shiftr c 12; 128 + Z.land (Z.shiftr c 6) 63; 128 + Z.land c 63]
     else
       [240 + Z.shiftr c 18; 128 + Z.land (Z.shiftr c 12) 63;
        128 + Z.land (Z.shiftr c 6) 63; 128 + Z.land c 63])).

(** What a serde [Visitor] reports through its default [visit_*] methods
    when [ValueDeserializer::deserialize_any] hands it [value]: the narrow
    integer and float visits forward to the 64-bit ones, [visit_char] forwards
    to [visit_str], [visit_string] to [visit_str], [visit_byte_buf] to
    [visit_bytes], and [visit_none]/[visit_some] both report [Option]. *)
Definition visitor_unexpected (value : Value) : Unexpected :=
  match value with
  | Value.Char c => Unexpected.Str (encode_utf8 c)
  | v => unexpected v
  end.

(** ** Deserializers, serializers and the serde traits *)

(** A self-describing deserializer, observed through what
    [Value::deserialize(deserializer)] yields: the buffered data-model value,
    or the front-end's own error (malformed input). *)
Definition Deserializer (E : Type) := result Value E.

(** [Value::deserialize(deserializer)] *)
Definition Value_deserialize {E : Type} (deserializer : Deserializer E)
  : result Value E := deserializer.

(** [ValueDeserializer::new(value)]: replays a buffered value; its
    [deserialize_any] hands [value] to the visitor. *)
Definition ValueDeserializer_new {E : Type} (value : Value) : Deserializer E :=
  Ok value.

(** [Deserialize<'de>]: generic over the deserializer, hence over its error
    type [D::Error]. *)
Class Deserialize (T : Type) :=
  deserialize : forall {E : Type} `{Error E}, Deserializer E -> result T E.
Arguments deserialize T {_ E _} _.

(** A serializer consumes one value of the serde data model. *)
Definition Serializer (O Er : Type) := Value -> result O Er.

(** [Serialize]: [fn serialize<Se: Serializer>(&self, serializer: Se)]. *)
Class Serialize (T : Type) :=
  serialize : forall {O Er : Type}, T -> Serializer O Er -> result O Er.
Arguments serialize {T _ O Er} _ _.

(** [serde_value::to_value]: serialize into the buffered data model. *)
Definition to_value {T Er : Type} `{Serialize T} (x : T) : result Value Er :=
  serialize x (fun v => Ok v).

Class Clone (T : Type) := clone : T -> T.
Arguments clone {T _} _.

(** ** The payload types the crate's tests use *)

(** [String]'s [StringVisitor], driven by [ValueDeserializer::deserialize_any]
    ([deserialize_string] is forwarded to it): a string is taken as is, a
    byte buffer through [String::from_utf8], a char through its UTF-8
    encoding; every other value is refused by the default visit. *)
#[global] Instance Deserialize_String : Deserialize string :=
  fun E _ deserializer =>
    value <-? Value_deserialize deserializer;;
    match value with
    | Value.String s => Ok s
    | Value.Bytes b =>
      match from_utf8 b with
      | Some s => Ok s
      | None => Err (invalid_value (Unexpected.Bytes b) "a string")
      end
    | Value.Char c => Ok (encode_utf8 c)
    | v => Err (invalid_type (visitor_unexpected v) "a string")
    end.

(** [SeqDeserializer] + [VecVisitor]: each element is decoded through
    [ValueDeserializer::new(element)]; the first error stops the loop. *)
Fixpoint collect_seq {T E : Type} (next : Value -> result T E) (vs : list Value)
  : result (list T) E :=
  match vs with
  | [] => Ok []
  | v :: rest =>
    x <-? next v;;
    xs <-? collect_seq next rest;;
    Ok (x :: xs)
  end.

#[global] Instance Deserialize_Vec {T : Type} `{Deserialize T} : Deserialize (list T) :=
  fun E _ deserializer =>
    value <-? Value_deserialize deserializer;;
    match value with
    | Value.Seq vs => collect_seq (fun v => deserialize T (ValueDeserializer_new v)) vs
    | v => Err (invalid_type (visitor_unexpected v) "a sequence")
    end.

(** [u8]'s primitive visitor: unsigned and signed integers are range
    checked, everything else is refused. *)
Definition u8 := Z.
#[global] Typeclasses Opaque u8.

#[global] Instance Deserialize_u8 : Deserialize u8 :=
  fun E _ deserializer =>
    value <-? Value_deserialize deserializer;;
    match value with
    | Value.U8 n => Ok n
    | Value.U16 n | Value.U32 n | Value.U64 n =>
      if n <=? 255 then Ok n else Err (invalid_value (Unexpected.Unsigned n) "u8")
    | Value.I8 n | Value.I16 n | Value.I32 n | Value.I64 n =>
      if ((0 <=? n) && (n <=? 255))%bool then Ok n
      else Err (invalid_value (Unexpected.Signed n) "u8")
    | v => Err (invalid_type (visitor_unexpected v) "u8")
    end.

#[global] Instance Serialize_String : Serialize string :=
  fun O Er s serializer => serializer (Value.String s).

(** [serialize_seq], one [serialize_element] per item (each serialized into
    the data model, errors propagating), then [end]. *)
Fixpoint serialize_elements {T Er : Type} `{Serialize T} (xs : list T)
  : result (list Value) Er :=
  match xs with
  | [] => Ok []
  | x :: rest =>
    v <-? to_value x;;
    vs <-? serialize_elements rest;;
    Ok (v :: vs)
  end.

#[global] Instance Serialize_Vec {T : Type} `{Serialize T} : Serialize (list T) :=
  fun O Er xs serializer =>
    vs <-? serialize_elements xs;;
    serializer (Value.Seq vs).

#[global] Instance Serialize_u8 : Serialize u8 :=
  fun O Er n serializer => serializer (Value.U8 n).

(** [String::clone] copies the bytes. *)
#[global] Instance Clone_String : Clone string := fun s => s.

(** ** The either-types (enums.rs) *)
Module StringOrStruct.
Inductive StringOrStruct (S : Type) : Type :=
| String (s : string)
| Struct (x : S).
Arguments String {S} s.
Arguments Struct {S} x.
End StringOrStruct.
Notation StringOrStruct := StringOrStruct.StringOrStruct.

Module StringOrStructOrVec.
Inductive StringOrStructOrVec (S V : Type) : Type :=
| String (s : string)
| Struct (x : S)
| Vec (v : V).
Arguments String {S V} s.
Arguments Struct {S V} x.
Arguments Vec {S V} v.
End StringOrStructOrVec.
Notation StringOrStructOrVec := StringOrStructOrVec.StringOrStructOrVec.

Module SingleOrVec.
Inductive SingleOrVec (S : Type) : Type :=
| Single (x : S)
| Vec (xs : list S).
Arguments Single {S} x.
Arguments Vec {S} xs.
End SingleOrVec.
Notation SingleOrVec := SingleOrVec.SingleOrVec.

(** ** Decoding (de.rs) *)
Section Decode.
Context {S V : Type} `{Deserialize S} `{Deserialize V}.

(** [StringOrStructOrVec::<S, V>::deserialize_with_expected] (lines 40-56):
    buffer the input, classify by the value's top-level kind, re-decode. *)
Definition deserialize_with_expected {E : Type} `{Error E}
    (deserializer : Deserializer E) (expected : Expected)
  : result (StringOrStructOrVec S V) E :=
  value <-? Value_deserialize deserializer;;
  match value with
  | Value.String _ | Value.Bytes _ =>
    s <-? deserialize string (ValueDeserializer_new value);;
    Ok (StringOrStructOrVec.String s)
  | Value.Seq _ =>
    v <-? deserialize V (ValueDeserializer_new value);;
    Ok (StringOrStructOrVec.Vec v)
  | Value.Map _ =>
    s <-? deserialize S (ValueDeserializer_new value);;
    Ok (StringOrStructOrVec.Struct s)
  | _ => Err (invalid_type (unexpected value) expected)
  end.

End Decode.
Arguments deserialize_with_expected S V {_ _ E _} deserializer expected.

(** [impl Deserialize for StringOrStructOrVec<S, V>] (lines 59-73). *)
#[global] Instance Deserialize_StringOrStructOrVec {S V : Type}
    `{Deserialize S} `{Deserialize V} : Deserialize (StringOrStructOrVec S V) :=
  fun E _ deserializer =>
    deserialize_with_expected S V deserializer "String, Struct or Vec".

(** [impl Deserialize for StringOrStruct<S>] (lines 75-94): the three-way
    helper at [S, S], then [Vec] is folded into [Struct]. *)
#[global] Instance Deserialize_StringOrStruct {S : Type} `{Deserialize S}
  : Deserialize (StringOrStruct S) :=
  fun E _ deserializer =>
    value <-? deserialize_with_expected S S deserializer "String or Struct";;
    match value with
    | StringOrStructOrVec.String s => Ok (StringOrStruct.String s)
    | StringOrStructOrVec.Struct v | StringOrStructOrVec.Vec v =>
      Ok (StringOrStruct.Struct v)
    end.

(** [impl Deserialize for SingleOrVec<S>] (lines 96-111). *)
#[global] Instance Deserialize_SingleOrVec {S : Type} `{Deserialize S}
  : Deserialize (SingleOrVec S) :=
  fun E _ deserializer =>
    value <-? Value_deserialize deserializer;;
    match value with
    | Value.Seq _ =>
      xs <-? deserialize (list S) (ValueDeserializer_new value);;
      Ok (SingleOrVec.Vec xs)
    | _ =>
      x <-? deserialize S (ValueDeserializer_new value);;
      Ok (SingleOrVec.Single x)
    end.

(** ** Encoding (se.rs) *)

#[global] Instance Serialize_StringOrStructOrVec {S V : Type}
    `{Serialize S} `{Serialize V} : Serialize (StringOrStructOrVec S V) :=
  fun O Er self serializer =>
    match self with
    | StringOrStructOrVec.String s => serialize s serializer
    | StringOrStructOrVec.Struct s => serialize s serializer
    | StringOrStructOrVec.Vec v => serialize v serializer
    end.

#[global] Instance Serialize_StringOrStruct {S : Type} `{Serialize S}
  : Serialize (StringOrStruct S) :=
  fun O Er self serializer =>
    match self with
    | StringOrStruct.String s => serialize s serializer
    | StringOrStruct.Struct s => serialize s serializer
    end.

#[global] Instance Serialize_SingleOrVec {S : Type} `{Serialize S}
  : Serialize (SingleOrVec S) :=
  fun O Er self serializer =>
    match self with
    | SingleOrVec.Single s => serialize s serializer
    | SingleOrVec.Vec s => serialize s serializer
    end.

(** ** Clone (enums.rs) *)

(** [Vec::clone] clones each element. *)
#[global] Instance Clone_Vec {T : Type} `{Clone T} : Clone (list T) :=
  fun xs => map clone xs.

#[global] Instance Clone_StringOrStruct {S : Type} `{Clone S}
  : Clone (StringOrStruct S) :=
  fun self =>
    match self with
    | StringOrStruct.String as_string => StringOrStruct.String (clone as_string)
    | StringOrStruct.Struct as_struct => StringOrStruct.Struct (clone as_struct)
    end.

#[global] Instance Clone_StringOrStructOrVec {S V : Type} `{Clone S} `{Clone V}
  : Clone (StringOrStructOrVec S V) :=
  fun self =>
    match self with
    | StringOrStructOrVec.String as_string =>
      StringOrStructOrVec.String (clone as_string)
    | StringOrStructOrVec.Struct as_struct =>
      StringOrStructOrVec.Struct (clone as_struct)
    | StringOrStructOrVec.Vec as_vec => StringOrStructOrVec.Vec (clone as_vec)
    end.

#[global] Instance Clone_SingleOrVec {S : Type} `{Clone S} : Clone (SingleOrVec S) :=
  fun self =>
    match self with
    | SingleOrVec.Single as_single => SingleOrVec.Single (clone as_single)
    | SingleOrVec.Vec as_vec => SingleOrVec.Vec (clone as_vec)
    end.

(** ** A concrete error type: [serde_value::DeserializerError] *)
Inductive DeserializerError : Type :=
| Custom (msg : string)
| InvalidType (u : Unexpected) (exp : string)
| InvalidValue (u : Unexpected) (exp : string)
| InvalidLength (len : Z) (exp : string)
| MissingField (field : string)
| DuplicateField (field : string).

#[global] Instance Error_DeserializerError : Error DeserializerError := {
  invalid_type := InvalidType;
  invalid_value := InvalidValue;
  invalid_length := InvalidLength;
  missing_field := MissingField;
  duplicate_field := DuplicateField;
  custom := Custom
}.

(** ** [i32] and the tests' [SimpleStruct] (tests/common/mod.rs) *)
Definition i32 := Z.
#[global] Typeclasses Opaque i32.

Definition i32_max : Z := 2147483647.

(** [i32]'s primitive visitor. *)
#[global] Instance Deserialize_i32 : Deserialize i32 :=
  fun E _ deserializer =>
    value <-? Value_deserialize deserializer;;
    match value with
    | Value.I8 n | Value.I16 n | Value.I32 n | Value.U8 n | Value.U16 n => Ok n
    | Value.I64 n =>
      if ((- i32_max - 1 <=? n) && (n <=? i32_max))%bool then Ok n
      else Err (invalid_value (Unexpected.Signed n) "i32")
    | Value.U32 n | Value.U64 n =>
      if n <=? i32_max then Ok n
      else Err (invalid_value (Unexpected.Unsigned n) "i32")
    | v => Err (invalid_type (visitor_unexpected v) "i32")
    end.

#[global] Instance Serialize_i32 : Serialize i32 :=
  fun O Er n serializer => serializer (Value.I32 n).

(** [#[derive(Serialize, Deserialize)] struct SimpleStruct { number: i32, text: String }] *)
Record SimpleStruct : Type := { number : i32; text : string }.

(** The derived [__Field] identifier: field names or indices; anything else
    of string, byte or unsigned kind is an ignored field. *)
Inductive SimpleStruct_Field : Type := Field0 | Field1 | Ignore.

Definition SimpleStruct_field_of_str (s : string) : SimpleStruct_Field :=
  if String.eqb s "number" then Field0
  else if String.eqb s "text" then Field1 else Ignore.

Definition SimpleStruct_field {E : Type} `{Error E} (key : Value)
  : result SimpleStruct_Field E :=
  match key with
  | Value.U8 n | Value.U16 n | Value.U32 n | Value.U64 n =>
    Ok (if n =? 0 then Field0 else if n =? 1 then Field1 else Ignore)
  | Value.String s => Ok (SimpleStruct_field_of_str s)
  | Value.Char c => Ok (SimpleStruct_field_of_str (encode_utf8 c))
  | Value.Bytes b => Ok (SimpleStruct_field_of_str (string_of_list_byte b))
  | v => Err (invalid_type (visitor_unexpected v) "field identifier")
  end.

(** The derived [visit_map]: entries in key order ([Value::Map] is a
    [BTreeMap]), a repeated field is refused, a missing one too. *)
Fixpoint SimpleStruct_visit_map {E : Type} `{Error E}
    (entries : list (Value * Value)) (number : option i32) (text : option string)
  : result SimpleStruct E :=
  match entries with
  | [] =>
    match number, text with
    | None, _ => Err (missing_field "number")
    | _, None => Err (missing_field "text")
    | Some n, Some t => Ok {| number := n; text := t |}
    end
  | (k, v) :: rest =>
    f <-? SimpleStruct_field k;;
    match f with
    | Field0 =>
      match number with
      | Some _ => Err (duplicate_field "number")
      | None =>
        n <-? deserialize i32 (ValueDeserializer_new v);;
        SimpleStruct_visit_map rest (Some n) text
      end
    | Field1 =>
      match text with
      | Some _ => Err (duplicate_field "text")
      | None =>
        t <-? deserialize string (ValueDeserializer_new v);;
        SimpleStruct_visit_map rest number (Some t)
      end
    | Ignore => SimpleStruct_visit_map rest number text
    end
  end.

Definition SimpleStruct_expecting : Expected := "struct SimpleStruct".

(** The derived [visit_seq] (fields by position), followed by
    [ValueDeserializer]'s check that the sequence was consumed. *)
Definition SimpleStruct_visit_seq {E : Type} `{Error E} (vs : list Value)
  : result SimpleStruct E :=
  match vs with
  | [] => Err (invalid_length 0 "struct SimpleStruct with 2 elements")
  | [_] => Err (invalid_length 1 "struct SimpleStruct with 2 elements")
  | v0 :: v1 :: rest =>
    n <-? deserialize i32 (ValueDeserializer_new v0);;
    t <-? deserialize string (ValueDeserializer_new v1);;
    match rest with
    | [] => Ok {| number := n; text := t |}
    | _ => Err (invalid_length (Z.of_nat (List.length vs)) "fewer elements in array")
    end
  end.

#[global] Instance Deserialize_SimpleStruct : Deserialize SimpleStruct :=
  fun E _ deserializer =>
    value <-? Value_deserialize deserializer;;
    match value with
    | Value.Map m => SimpleStruct_visit_map m None None
    | Value.Seq vs => SimpleStruct_visit_seq vs
    | v => Err (invalid_type (visitor_unexpected v) SimpleStruct_expecting)
    end.

(** The derived [serialize_struct]; [serde_value]'s serializer buffers it as
    a map keyed by the field names. *)
#[global] Instance Serialize_SimpleStruct : Serialize SimpleStruct :=
  fun O Er self serializer =>
    n <-? to_value (number self);;
    t <-? to_value (text self);;
    serializer (Value.Map [(Value.String "number", n); (Value.String "text", t)]).

(** Decoding with [serde_value]'s own error type. *)
Definition decode (T : Type) `{Deserialize T} (d : Deserializer DeserializerError)
  : result T DeserializerError := deserialize T d.

Example decode_string_shape :
  decode (StringOrStruct (list u8)) (Ok (Value.String "[1,5,8,12,32]"))
  = Ok (StringOrStruct.String "[1,5,8,12,32]").
Proof. reflexivity. Qed.

Example decode_u8_seq :
  decode (StringOrStruct (list u8))
    (Ok (Value.Seq (map Value.U64 [1; 5; 8; 12; 32])))
  = Ok (StringOrStruct.Struct [1; 5; 8; 12; 32]).
Proof. reflexivity. Qed.

Example decode_number_fails :
  decode (StringOrStruct SimpleStruct) (Ok (Value.U64 18))
  = Err (InvalidType (Unexpected.Unsigned 18) "String or Struct").
Proof. reflexivity. Qed.

Example decode_bytes_utf8 :
  decode (StringOrStructOrVec SimpleStruct (list SimpleStruct))
    (Ok (Value.Bytes [Byte.x68; Byte.x69]))
  = Ok (StringOrStructOrVec.String "hi").
Proof. reflexivity. Qed.

(** ** Spec-side views used to state the claims *)

(** Folding the three-way result onto [StringOrStruct]: [Vec] goes to
    [Struct] (the spec's "re-mapping"). *)
Definition merge_vec_into_struct {S : Type} (r : StringOrStructOrVec S S)
  : StringOrStruct S :=
  match r with
  | StringOrStructOrVec.String s => StringOrStruct.String s
  | StringOrStructOrVec.Struct v | StringOrStructOrVec.Vec v => StringOrStruct.Struct v
  end.

(** A value whose top-level kind is neither string, bytes, sequence nor map. *)
Definition other_shape (value : Value) : Prop :=
  (forall s, value <> Value.String s) /\ (forall b, value <> Value.Bytes b) /\
  (forall vs, value <> Value.Seq vs) /\ (forall m, value <> Value.Map m).

(** ** Lemmas *)
Section Dispatch.
Context {S V : Type} `{dS : Deserialize S} `{dV : Deserialize V}.
Context {E : Type} `{HE : Error E}.

Lemma dispatch_string (s : string) (expected : Expected) :
  deserialize_with_expected S V (Ok (Value.String s)) expected
  = Ok (StringOrStructOrVec.String s).
Proof. reflexivity. Qed.

Lemma dispatch_bytes (b : bytes) (expected : Expected) :
  deserialize_with_expected S V (Ok (Value.Bytes b)) expected
  = match from_utf8 b with
    | Some s => Ok (StringOrStructOrVec.String s)
    | None => Err (invalid_value (Unexpected.Bytes b) "a string")
    end.
Proof. cbn. destruct (from_utf8 b); reflexivity. Qed.

Lemma dispatch_bytes_payload (b : bytes) (expected : Expected) :
  deserialize_with_expected S V (Ok (Value.Bytes b)) expected
  = map_ok StringOrStructOrVec.String (deserialize string (Ok (Value.Bytes b))).
Proof.
  cbv beta iota delta [deserialize_with_expected Value_deserialize ValueDeserializer_new].
  destruct (deserialize string (Ok (Value.Bytes b))); reflexivity.
Qed.

Lemma dispatch_seq (vs : list Value) (expected : Expected) :
  deserialize_with_expected S V (Ok (Value.Seq vs)) expected
  = map_ok StringOrStructOrVec.Vec (deserialize V (Ok (Value.Seq vs))).
Proof. cbn. destruct (deserialize V _); reflexivity. Qed.

Lemma dispatch_map (m : list (Value * Value)) (expected : Expected) :
  deserialize_with_expected S V (Ok (Value.Map m)) expected
  = map_ok StringOrStructOrVec.Struct (deserialize S (Ok (Value.Map m))).
Proof. cbn. destruct (deserialize S _); reflexivity. Qed.

Lemma dispatch_other (value : Value) (expected : Expected) :
  other_shape value ->
  deserialize_with_expected S V (Ok value) expected
  = Err (invalid_type (unexpected value) expected).
Proof.
  intros (Hs & Hb & Hq & Hm).
  destruct value; cbn; try reflexivity; exfalso;
    [eapply Hs | eapply Hq | eapply Hm | eapply Hb]; reflexivity.
Qed.

Lemma StringOrStructOrVec_deserialize (deserializer : Deserializer E) :
  deserialize (StringOrStructOrVec S V) deserializer
  = deserialize_with_expected S V deserializer "String, Struct or Vec".
Proof. reflexivity. Qed.

Lemma dispatch_front_end (e : E) (expected : Expected) :
  deserialize_with_expected S V (Err e) expected = Err e.
Proof. reflexivity. Qed.

End Dispatch.

Section Folding.
Context {S : Type} `{dS : Deserialize S} {E : Type} `{HE : Error E}.

(** [StringOrStruct<S>]'s decoder is the helper at [S, S] followed by the
    fold. *)
Lemma StringOrStruct_as_merge (deserializer : Deserializer E) :
  deserialize (StringOrStruct S) deserializer
  = map_ok merge_vec_into_struct
      (deserialize_with_expected S S deserializer "String or Struct").
Proof.
  cbv [deserialize Deserialize_StringOrStruct map_ok merge_vec_into_struct].
  destruct (deserialize_with_expected S S deserializer _) as [[]|]; reflexivity.
Qed.

Lemma SingleOrVec_on_seq (vs : list Value) :
  deserialize (SingleOrVec S) (Ok (Value.Seq vs))
  = map_ok SingleOrVec.Vec (deserialize (list S) (Ok (Value.Seq vs))).
Proof.
  cbn [deserialize Deserialize_SingleOrVec Value_deserialize ValueDeserializer_new].
  destruct (deserialize (list S) _); reflexivity.
Qed.

Lemma SingleOrVec_on_other (value : Value) :
  (forall vs, value <> Value.Seq vs) ->
  deserialize (SingleOrVec S) (Ok value)
  = map_ok SingleOrVec.Single (deserialize S (Ok value)).
Proof.
  intros Hv.
  destruct value; try (exfalso; eapply Hv; reflexivity);
    cbn [deserialize Deserialize_SingleOrVec Value_deserialize ValueDeserializer_new];
    destruct (deserialize S _); reflexivity.
Qed.

End Folding.

(** ** Claims *)
Section Claims.
Context {S V : Type} `{dS : Deserialize S} `{dV : Deserialize V}.
Context {E : Type} `{HE : Error E}.

(** C1 (amended): a string-shaped value always decodes, as
    [StringOrStructOrVec<S, V>] and as [StringOrStruct<S>], to the [String]
    variant holding that text; a byte-string-shaped value decodes to the
    [String] variant holding its bytes as text when they are valid UTF-8 and
    otherwise fails with the string decoder's invalid-value error.  The right
    hand sides do not mention the [S] and [V] decoders: they are never run. *)
Theorem string_shape_decodes_to_String :
  (forall s : string,
     deserialize (StringOrStructOrVec S V) (Ok (Value.String s))
     = Ok (StringOrStructOrVec.String s) /\
     deserialize (StringOrStruct S) (Ok (Value.String s))
     = Ok (StringOrStruct.String s)) /\
  (forall b : bytes,
     deserialize (StringOrStructOrVec S V) (Ok (Value.Bytes b))
     = match from_utf8 b with
       | Some s => Ok (StringOrStructOrVec.String s)
       | None => Err (invalid_value (Unexpected.Bytes b) "a string")
       end /\
     deserialize (StringOrStruct S) (Ok (Value.Bytes b))
     = match from_utf8 b with
       | Some s => Ok (StringOrStruct.String s)
       | None => Err (invalid_value (Unexpected.Bytes b) "a string")
       end).
Proof.
  split; intros x; split.
  - apply dispatch_string.
  - rewrite StringOrStruct_as_merge, dispatch_string. reflexivity.
  - apply dispatch_bytes.
  - rewrite StringOrStruct_as_merge, dispatch_bytes.
    destruct (from_utf8 x); reflexivity.
Qed.

(** C2: a value of any other kind (boolean, integer, float, char, unit,
    option, newtype) fails at dispatch with [invalid_type], carrying
    [unexpected value] and the fixed expectation string of the target:
    ["String, Struct or Vec"] or ["String or Struct"]. *)
Theorem other_shape_is_type_mismatch (value : Value) :
  other_shape value ->
  deserialize (StringOrStructOrVec S V) (Ok value)
  = Err (invalid_type (unexpected value) "String, Struct or Vec") /\
  deserialize (StringOrStruct S) (Ok value)
  = Err (invalid_type (unexpected value) "String or Struct").
Proof.
  intros Hother. split.
  - apply (dispatch_other value _ Hother).
  - rewrite StringOrStruct_as_merge, (dispatch_other value _ Hother). reflexivity.
Qed.

(** C9: a byte string takes the [String] branch of both
    [StringOrStructOrVec] and [StringOrStruct]: it decodes to the [String]
    variant exactly when the bytes are valid UTF-8, and otherwise fails with
    the string decoder's [invalid_value] error; the [S] and [V] decoders are
    not consulted. *)
Theorem bytes_take_string_branch (b : bytes) :
  (deserialize (StringOrStructOrVec S V) (Ok (Value.Bytes b))
   = match from_utf8 b with
     | Some s => Ok (StringOrStructOrVec.String s)
     | None => Err (invalid_value (Unexpected.Bytes b) "a string")
     end) /\
  (deserialize (StringOrStruct S) (Ok (Value.Bytes b))
   = match from_utf8 b with
     | Some s => Ok (StringOrStruct.String s)
     | None => Err (invalid_value (Unexpected.Bytes b) "a string")
     end).
Proof.
  split.
  - apply dispatch_bytes.
  - rewrite StringOrStruct_as_merge, dispatch_bytes.
    destruct (from_utf8 b); reflexivity.
Qed.

End Claims.

(** Decoding integers in [0, 255] as [u8]s. *)
Lemma u8_seq_decodes {E : Type} `{HE : Error E} (ns : list Z) :
  Forall (fun n => 0 <= n <= 255) ns ->
  deserialize (list u8) (E := E) (Ok (Value.Seq (map Value.U64 ns))) = Ok ns.
Proof.
  intros Hns. cbn [deserialize Deserialize_Vec Value_deserialize].
  induction Hns as [|n ns Hn Hns IH]; [reflexivity|].
  cbn [map collect_seq].
  replace (deserialize u8 (ValueDeserializer_new (Value.U64 n))) with (@Ok u8 E n).
  - rewrite IH. reflexivity.
  - cbn. replace (n <=? 255) with true; [reflexivity|].
    symmetry. apply Z.leb_le. lia.
Qed.

Lemma to_value_StringOrStruct_Struct {S Er : Type} `{sS : Serialize S} (x : S) :
  to_value (Er := Er) (StringOrStruct.Struct x) = to_value x.
Proof. reflexivity. Qed.

Section Claims2.
Context {S V : Type} `{dS : Deserialize S} `{dV : Deserialize V}.
Context {E : Type} `{HE : Error E}.

(** C3: decoding a [StringOrStruct<S>] is the three-way dispatcher at
    [S, S] (with expectation ["String or Struct"]) followed by folding
    [Vec] into [Struct]; so a sequence is decoded by [S] itself and returned
    as [Struct], and for [S = Vec<u8>] an array of integers in [0, 255]
    yields [Struct] holding them. *)
Theorem StringOrStruct_is_folded_dispatch :
  (forall deserializer : Deserializer E,
     deserialize (StringOrStruct S) deserializer
     = map_ok merge_vec_into_struct
         (deserialize_with_expected S S deserializer "String or Struct")) /\
  (forall vs : list Value,
     deserialize (StringOrStruct S) (Ok (Value.Seq vs))
     = map_ok StringOrStruct.Struct (deserialize S (Ok (Value.Seq vs)))) /\
  (forall ns : list Z,
     Forall (fun n => 0 <= n <= 255) ns ->
     deserialize (StringOrStruct (list u8)) (Ok (Value.Seq (map Value.U64 ns)))
     = Ok (StringOrStruct.Struct ns)).
Proof.
  split; [|split].
  - apply StringOrStruct_as_merge.
  - intros vs. rewrite StringOrStruct_as_merge, dispatch_seq.
    destruct (deserialize S _); reflexivity.
  - intros ns Hns. rewrite StringOrStruct_as_merge, dispatch_seq, u8_seq_decodes by exact Hns.
    reflexivity.
Qed.

(** C4: [SingleOrVec<S>] splits on shape alone: a sequence is decoded as
    [Vec<S>] into [Vec], any other value as [S] into [Single]; for a
    non-sequence value it fails exactly when [S]'s decoder fails, with that
    error, and a front-end error comes back as it is. *)
Theorem SingleOrVec_two_way_split :
  (forall vs : list Value,
     deserialize (SingleOrVec S) (Ok (Value.Seq vs))
     = map_ok SingleOrVec.Vec (deserialize (list S) (Ok (Value.Seq vs)))) /\
  (forall value : Value, (forall vs, value <> Value.Seq vs) ->
     deserialize (SingleOrVec S) (Ok value)
     = map_ok SingleOrVec.Single (deserialize S (Ok value))) /\
  (forall (value : Value) (e : E), (forall vs, value <> Value.Seq vs) ->
     (deserialize (SingleOrVec S) (Ok value) = Err e <->
      deserialize S (Ok value) = Err e)) /\
  (forall e : E, deserialize (SingleOrVec S) (Err e) = Err e).
Proof.
  split; [|split; [exact SingleOrVec_on_other|split]].
  - exact SingleOrVec_on_seq.
  - intros value e Hv. rewrite (SingleOrVec_on_other value Hv).
    destruct (deserialize S (Ok value)); cbn; split; congruence.
  - reflexivity.
Qed.

(** C6: once a branch is chosen, a failure of the payload decoder is
    returned unchanged, for all three either-types; a front-end error is
    returned unchanged too. *)
Theorem payload_errors_propagate (e : E) :
  (* front-end errors *)
  (deserialize (StringOrStructOrVec S V) (Err e) = Err e /\
   deserialize (StringOrStruct S) (Err e) = Err e /\
   deserialize (SingleOrVec S) (Err e) = Err e) /\
  (* StringOrStructOrVec<S, V> *)
  (forall m, deserialize S (Ok (Value.Map m)) = Err e ->
     deserialize (StringOrStructOrVec S V) (Ok (Value.Map m)) = Err e) /\
  (forall vs, deserialize V (Ok (Value.Seq vs)) = Err e ->
     deserialize (StringOrStructOrVec S V) (Ok (Value.Seq vs)) = Err e) /\
  (forall b, deserialize string (Ok (Value.Bytes b)) = Err e ->
     deserialize (StringOrStructOrVec S V) (Ok (Value.Bytes b)) = Err e) /\
  (* StringOrStruct<S> *)
  (forall m, deserialize S (Ok (Value.Map m)) = Err e ->
     deserialize (StringOrStruct S) (Ok (Value.Map m)) = Err e) /\
  (forall vs, deserialize S (Ok (Value.Seq vs)) = Err e ->
     deserialize (StringOrStruct S) (Ok (Value.Seq vs)) = Err e) /\
  (forall b, deserialize string (Ok (Value.Bytes b)) = Err e ->
     deserialize (StringOrStruct S) (Ok (Value.Bytes b)) = Err e) /\
  (* SingleOrVec<S> *)
  (forall vs, deserialize (list S) (Ok (Value.Seq vs)) = Err e ->
     deserialize (SingleOrVec S) (Ok (Value.Seq vs)) = Err e) /\
  (forall value, (forall vs, value <> Value.Seq vs) ->
     deserialize S (Ok value) = Err e ->
     deserialize (SingleOrVec S) (Ok value) = Err e).
Proof.
  split; [split; [|split]; reflexivity|].
  split; [intros m Hm; rewrite StringOrStructOrVec_deserialize;
          rewrite dispatch_map, Hm; reflexivity|].
  split; [intros vs Hvs; rewrite StringOrStructOrVec_deserialize;
          rewrite dispatch_seq, Hvs; reflexivity|].
  split; [intros b Hb; rewrite StringOrStructOrVec_deserialize;
          rewrite dispatch_bytes_payload, Hb; reflexivity|].
  split; [intros m Hm; rewrite StringOrStruct_as_merge, dispatch_map, Hm;
          reflexivity|].
  split; [intros vs Hvs; rewrite StringOrStruct_as_merge, dispatch_seq, Hvs;
          reflexivity|].
  split; [intros b Hb; rewrite StringOrStruct_as_merge;
          rewrite dispatch_bytes_payload, Hb; reflexivity|].
  split.
  - intros vs Hvs. rewrite SingleOrVec_on_seq, Hvs. reflexivity.
  - intros value Hv He. rewrite (SingleOrVec_on_other value Hv), He. reflexivity.
Qed.

End Claims2.

Section Claims3.
Context {S T : Type} `{dS : Deserialize S} `{dT : Deserialize T}.
Context {E : Type} `{HE : Error E}.

(** C7: a sequence decoded as [StringOrStruct<S>] is handed to [S]'s own
    decoder: it fails, with [S]'s error, whenever [S] cannot be decoded from
    that sequence, while as [StringOrStruct<Vec<T>>] it yields [Struct]
    holding the vector whenever [Vec<T>] decodes it. *)
Theorem sequence_acceptance_follows_payload (vs : list Value) (e : E) (xs : list T) :
  deserialize S (Ok (Value.Seq vs)) = Err e ->
  deserialize (list T) (Ok (Value.Seq vs)) = Ok xs ->
  deserialize (StringOrStruct S) (Ok (Value.Seq vs)) = Err e /\
  deserialize (StringOrStruct (list T)) (Ok (Value.Seq vs))
  = Ok (StringOrStruct.Struct xs).
Proof.
  intros HS HT. split.
  - rewrite StringOrStruct_as_merge, dispatch_seq, HS. reflexivity.
  - rewrite StringOrStruct_as_merge, dispatch_seq, HT. reflexivity.
Qed.

End Claims3.

Section Encode.
Context {S V : Type} `{sS : Serialize S} `{sV : Serialize V}.
Context {O Er : Type} (serializer : Serializer O Er).

(** C8: encoding any of the three either-types is the encoding of the active
    variant's payload, with nothing added around it. *)
Theorem encoding_is_transparent :
  (forall s : string,
     serialize (StringOrStructOrVec.String (S := S) (V := V) s) serializer
     = serialize s serializer) /\
  (forall x : S,
     serialize (StringOrStructOrVec.Struct (V := V) x) serializer
     = serialize x serializer) /\
  (forall v : V,
     serialize (StringOrStructOrVec.Vec (S := S) v) serializer
     = serialize v serializer) /\
  (forall s : string,
     serialize (StringOrStruct.String (S := S) s) serializer = serialize s serializer) /\
  (forall x : S,
     serialize (StringOrStruct.Struct x) serializer = serialize x serializer) /\
  (forall x : S,
     serialize (SingleOrVec.Single x) serializer = serialize x serializer) /\
  (forall xs : list S,
     serialize (SingleOrVec.Vec xs) serializer = serialize xs serializer).
Proof. repeat split. Qed.

End Encode.

Section CloneClaim.
Context {S V : Type} `{cS : Clone S} `{cV : Clone V}.

(** C10: cloning keeps the active variant: a [String] variant clones to a
    [String] variant with an equal string, and every other variant clones to
    the same variant holding the clone of its payload. *)
Theorem clone_keeps_variant :
  (forall s : string,
     clone (StringOrStruct.String (S := S) s) = StringOrStruct.String s) /\
  (forall x : S,
     clone (StringOrStruct.Struct x) = StringOrStruct.Struct (clone x)) /\
  (forall s : string,
     clone (StringOrStructOrVec.String (S := S) (V := V) s)
     = StringOrStructOrVec.String s) /\
  (forall x : S,
     clone (StringOrStructOrVec.Struct (V := V) x)
     = StringOrStructOrVec.Struct (clone x)) /\
  (forall v : V,
     clone (StringOrStructOrVec.Vec (S := S) v) = StringOrStructOrVec.Vec (clone v)) /\
  (forall x : S,
     clone (SingleOrVec.Single x) = SingleOrVec.Single (clone x)) /\
  (forall xs : list S,
     clone (SingleOrVec.Vec xs) = SingleOrVec.Vec (clone xs)).
Proof. repeat split. Qed.

End CloneClaim.

Section RoundTrip.
Context {S : Type} `{dS : Deserialize S} `{sS : Serialize S}.
Context {E : Type} `{HE : Error E}.

(** C5 (amended): encoding into the data model and decoding back as
    [StringOrStruct<S>]: a [String] variant always comes back as the same
    string.  [Struct(x)] comes back as [Struct(x)] when [x] encodes to a
    sequence or map that [S]'s decoder reads back as [x]; when [x] encodes
    to a string it comes back as the [String] variant, when it encodes to a
    byte string it never comes back as [Struct], and when it encodes to any
    other kind of value decoding fails with the shape mismatch. *)
Theorem StringOrStruct_roundtrip :
  (forall s : string,
     deserialize (StringOrStruct S) (to_value (StringOrStruct.String s))
     = Ok (StringOrStruct.String s)) /\
  (forall (x : S) (v : Value),
     to_value (Er := E) x = Ok v ->
     (exists vs, v = Value.Seq vs) \/ (exists m, v = Value.Map m) ->
     deserialize S (Ok v) = Ok x ->
     deserialize (StringOrStruct S) (to_value (StringOrStruct.Struct x))
     = Ok (StringOrStruct.Struct x)) /\
  (forall (x : S) (s : string),
     to_value (Er := E) x = Ok (Value.String s) ->
     deserialize (StringOrStruct S) (to_value (StringOrStruct.Struct x))
     = Ok (StringOrStruct.String s)) /\
  (forall (x : S) (b : bytes) (y : S),
     to_value (Er := E) x = Ok (Value.Bytes b) ->
     deserialize (StringOrStruct S) (to_value (StringOrStruct.Struct x))
     <> Ok (StringOrStruct.Struct y)) /\
  (forall (x : S) (v : Value),
     to_value (Er := E) x = Ok v -> other_shape v ->
     deserialize (StringOrStruct S) (to_value (StringOrStruct.Struct x))
     = Err (invalid_type (unexpected v) "String or Struct")).
Proof.
  split; [|split; [|split; [|split]]].
  - intros s. rewrite StringOrStruct_as_merge. reflexivity.
  - intros x v Hx Hshape Hback.
    rewrite to_value_StringOrStruct_Struct, Hx, StringOrStruct_as_merge.
    destruct Hshape as [[vs ->]|[m ->]].
    + rewrite dispatch_seq, Hback. reflexivity.
    + rewrite dispatch_map, Hback. reflexivity.
  - intros x s Hx.
    rewrite to_value_StringOrStruct_Struct, Hx, StringOrStruct_as_merge,
      dispatch_string. reflexivity.
  - intros x b y Hx.
    rewrite to_value_StringOrStruct_Struct, Hx, StringOrStruct_as_merge,
      dispatch_bytes.
    destruct (from_utf8 b); discriminate.
  - intros x v Hx Hother.
    rewrite to_value_StringOrStruct_Struct, Hx, StringOrStruct_as_merge,
      (dispatch_other v _ Hother). reflexivity.
Qed.

End RoundTrip.

(** ** Concrete inputs (the crate's tests, as buffered from JSON) *)

Definition struct_42 : Value :=
  Value.Map [(Value.String "number", Value.U64 42);
             (Value.String "text", Value.String "some text")].

Definition struct_3 : Value :=
  Value.Map [(Value.String "number", Value.U64 3);
             (Value.String "text", Value.String "some other text")].

Definition simple_42 : SimpleStruct := {| number := 42; text := "some text" |}.

Definition simple_3 : SimpleStruct := {| number := 3; text := "some other text" |}.

Example decode_struct_or_vec_map :
  decode (StringOrStructOrVec SimpleStruct (list SimpleStruct)) (Ok struct_42)
  = Ok (StringOrStructOrVec.Struct simple_42).
Proof. reflexivity. Qed.

Example decode_struct_or_vec_seq :
  decode (StringOrStructOrVec SimpleStruct (list SimpleStruct))
    (Ok (Value.Seq [struct_42; struct_3]))
  = Ok (StringOrStructOrVec.Vec [simple_42; simple_3]).
Proof. reflexivity. Qed.

Example decode_struct_or_vec_false :
  decode (StringOrStructOrVec SimpleStruct (list SimpleStruct)) (Ok (Value.Bool false))
  = Err (InvalidType (Unexpected.Bool false) "String, Struct or Vec").
Proof. reflexivity. Qed.

(** C1: a byte string that is not UTF-8 does not yield the [String]
    variant: the string decoder's error comes back. *)
Lemma string_shape_bytes_counterexample :
  decode (StringOrStructOrVec SimpleStruct (list SimpleStruct))
    (Ok (Value.Bytes [Byte.xff]))
  = Err (InvalidValue (Unexpected.Bytes [Byte.xff]) "a string").
Proof. vm_compute. reflexivity. Qed.

(** C2 at the number [18] of the crate's error test. *)
Lemma other_shape_is_type_mismatch_witness :
  other_shape (Value.U64 18) /\
  deserialize (StringOrStructOrVec SimpleStruct (list SimpleStruct))
    (E := DeserializerError) (Ok (Value.U64 18))
  = Err (invalid_type (unexpected (Value.U64 18)) "String, Struct or Vec") /\
  deserialize (StringOrStruct SimpleStruct) (E := DeserializerError) (Ok (Value.U64 18))
  = Err (invalid_type (unexpected (Value.U64 18)) "String or Struct").
Proof.
  assert (H : other_shape (Value.U64 18)) by (repeat split; discriminate).
  split; [exact H|].
  exact (other_shape_is_type_mismatch (S := SimpleStruct) (V := list SimpleStruct)
           (E := DeserializerError) (Value.U64 18) H).
Defined.

(** C3 at the array [[1,5,8,12,32]] of the crate's [Vec<u8>] test. *)
Lemma StringOrStruct_is_folded_dispatch_witness :
  Forall (fun n => 0 <= n <= 255) [1; 5; 8; 12; 32] /\
  deserialize (StringOrStruct (list u8)) (E := DeserializerError)
    (Ok (Value.Seq (map Value.U64 [1; 5; 8; 12; 32])))
  = Ok (StringOrStruct.Struct [1; 5; 8; 12; 32]).
Proof.
  assert (H : Forall (fun n => 0 <= n <= 255) [1; 5; 8; 12; 32])
    by (repeat constructor; lia).
  split; [exact H|].
  exact (proj2 (proj2 (StringOrStruct_is_folded_dispatch (S := SimpleStruct)
                         (E := DeserializerError))) _ H).
Defined.

(** C4 at a string given to [SingleOrVec<SimpleStruct>]: [SimpleStruct]'s own
    error comes back. *)
Lemma SingleOrVec_two_way_split_witness :
  (forall vs, Value.String "x" <> Value.Seq vs) /\
  deserialize (SingleOrVec SimpleStruct) (E := DeserializerError) (Ok (Value.String "x"))
  = Err (InvalidType (Unexpected.Str "x") SimpleStruct_expecting) /\
  (deserialize (SingleOrVec SimpleStruct) (Ok (Value.String "x"))
   = Err (InvalidType (Unexpected.Str "x") SimpleStruct_expecting) <->
   deserialize SimpleStruct (Ok (Value.String "x"))
   = Err (InvalidType (Unexpected.Str "x") SimpleStruct_expecting)).
Proof.
  assert (H : forall vs, Value.String "x" <> Value.Seq vs) by discriminate.
  split; [exact H|]. split; [reflexivity|].
  exact (proj1 (proj2 (proj2 (SingleOrVec_two_way_split (S := SimpleStruct)
                                (E := DeserializerError))))
           (Value.String "x") _ H).
Defined.

(** C5: with [S = String], [Struct("abc")] encodes to the string ["abc"],
    which decodes as the [String] variant, not as [Struct("abc")]. *)
Lemma StringOrStruct_roundtrip_counterexample :
  deserialize (StringOrStruct string) (E := DeserializerError)
    (to_value (StringOrStruct.Struct "abc"))
  = Ok (StringOrStruct.String "abc") /\
  deserialize (StringOrStruct string) (E := DeserializerError)
    (to_value (StringOrStruct.Struct "abc"))
  <> Ok (StringOrStruct.Struct "abc").
Proof. split; [reflexivity | discriminate]. Qed.

(** C5 (amended) at the tests' [SimpleStruct { number: 42, text: "some text" }]. *)
Definition simple_42_value : Value :=
  Value.Map [(Value.String "number", Value.I32 42);
             (Value.String "text", Value.String "some text")].

Lemma StringOrStruct_roundtrip_witness :
  to_value (Er := DeserializerError) simple_42 = Ok simple_42_value /\
  deserialize SimpleStruct (E := DeserializerError) (Ok simple_42_value) = Ok simple_42 /\
  deserialize (StringOrStruct SimpleStruct) (E := DeserializerError)
    (to_value (StringOrStruct.Struct simple_42))
  = Ok (StringOrStruct.Struct simple_42).
Proof.
  assert (H1 : to_value (Er := DeserializerError) simple_42 = Ok simple_42_value)
    by reflexivity.
  assert (H2 : deserialize SimpleStruct (E := DeserializerError) (Ok simple_42_value)
               = Ok simple_42) by reflexivity.
  split; [exact H1|]. split; [exact H2|].
  exact (proj1 (proj2 (StringOrStruct_roundtrip (S := SimpleStruct)
                         (E := DeserializerError)))
           simple_42 simple_42_value H1 (or_intror (ex_intro _ _ eq_refl)) H2).
Defined.

(** C6 at a map lacking the [text] field: [SimpleStruct]'s [missing_field]
    error comes back from [StringOrStructOrVec] and [StringOrStruct]. *)
Definition struct_without_text : list (Value * Value) :=
  [(Value.String "number", Value.U64 42)].

Lemma payload_errors_propagate_witness :
  deserialize SimpleStruct (E := DeserializerError) (Ok (Value.Map struct_without_text))
  = Err (MissingField "text") /\
  deserialize (StringOrStructOrVec SimpleStruct (list SimpleStruct))
    (Ok (Value.Map struct_without_text)) = Err (MissingField "text") /\
  deserialize (StringOrStruct SimpleStruct)
    (Ok (Value.Map struct_without_text)) = Err (MissingField "text").
Proof.
  assert (H : deserialize SimpleStruct (E := DeserializerError)
                (Ok (Value.Map struct_without_text)) = Err (MissingField "text"))
    by reflexivity.
  pose proof (payload_errors_propagate (S := SimpleStruct) (V := list SimpleStruct)
                (E := DeserializerError) (MissingField "text")) as P.
  split; [exact H|]. split.
  - exact (proj1 (proj2 P) _ H).
  - exact (proj1 (proj2 (proj2 (proj2 (proj2 P)))) _ H).
Defined.

(** C7 at the crate's test input: two structs in an array. *)
Lemma sequence_acceptance_follows_payload_witness :
  deserialize SimpleStruct (E := DeserializerError) (Ok (Value.Seq [struct_42; struct_3]))
  = Err (InvalidType Unexpected.Map "i32") /\
  deserialize (list SimpleStruct) (E := DeserializerError)
    (Ok (Value.Seq [struct_42; struct_3]))
  = Ok [simple_42; simple_3] /\
  deserialize (StringOrStruct SimpleStruct) (Ok (Value.Seq [struct_42; struct_3]))
  = Err (InvalidType Unexpected.Map "i32") /\
  deserialize (StringOrStruct (list SimpleStruct)) (Ok (Value.Seq [struct_42; struct_3]))
  = Ok (StringOrStruct.Struct [simple_42; simple_3]).
Proof.
  assert (HS : deserialize SimpleStruct (E := DeserializerError)
                 (Ok (Value.Seq [struct_42; struct_3]))
               = Err (InvalidType Unexpected.Map "i32")) by reflexivity.
  assert (HT : deserialize (list SimpleStruct) (E := DeserializerError)
                 (Ok (Value.Seq [struct_42; struct_3]))
               = Ok [simple_42; simple_3]) by reflexivity.
  split; [exact HS|]. split; [exact HT|].
  exact (sequence_acceptance_follows_payload _ _ _ HS HT).
Defined.

(** * Further properties of the decoders and encoders *)

Section DispatchCases.
Context {S V : Type} `{dS : Deserialize S} `{dV : Deserialize V}.
Context {E : Type} `{HE : Error E}.

(** The dispatcher's behaviour on a buffered value, one case per shape. *)
Lemma dispatch_cases (value : Value) (expected : Expected) :
  deserialize_with_expected S V (Ok value) expected
  = match value with
    | Value.String s => Ok (StringOrStructOrVec.String s)
    | Value.Bytes b =>
      match from_utf8 b with
      | Some s => Ok (StringOrStructOrVec.String s)
      | None => Err (invalid_value (Unexpected.Bytes b) "a string")
      end
    | Value.Seq vs => map_ok StringOrStructOrVec.Vec (deserialize V (Ok (Value.Seq vs)))
    | Value.Map m => map_ok StringOrStructOrVec.Struct (deserialize S (Ok (Value.Map m)))
    | _ => Err (invalid_type (unexpected value) expected)
    end.
Proof.
  destruct value;
    first [ apply dispatch_string | apply dispatch_bytes | apply dispatch_seq
          | apply dispatch_map
          | apply dispatch_other; repeat split; intros; discriminate ].
Qed.

(** Every successful [StringOrStructOrVec<S, V>] decode is explained by the
    input's shape: [String] comes from a string or a UTF-8 byte string with
    that text, [Struct] from a map that [S] decodes to that payload, [Vec]
    from a sequence that [V] decodes to that payload. *)
Theorem StringOrStructOrVec_success_inversion (value : Value) :
  (forall s, deserialize (StringOrStructOrVec S V) (Ok value)
             = Ok (StringOrStructOrVec.String s) ->
     value = Value.String s \/
     exists b, value = Value.Bytes b /\ from_utf8 b = Some s) /\
  (forall x, deserialize (StringOrStructOrVec S V) (Ok value)
             = Ok (StringOrStructOrVec.Struct x) ->
     exists m, value = Value.Map m /\ deserialize S (Ok (Value.Map m)) = Ok x) /\
  (forall v, deserialize (StringOrStructOrVec S V) (Ok value)
             = Ok (StringOrStructOrVec.Vec v) ->
     exists vs, value = Value.Seq vs /\ deserialize V (Ok (Value.Seq vs)) = Ok v).
Proof.
  rewrite StringOrStructOrVec_deserialize, dispatch_cases.
  unfold map_ok. destruct value; repeat split; intros ? H;
    repeat match type of H with
           | context [match ?x with _ => _ end] => destruct x eqn:?
           end;
    try discriminate H; inversion H; subst; eauto.
Qed.

End DispatchCases.

Lemma to_value_StringOrStructOrVec {S V Er : Type} `{Serialize S} `{Serialize V}
    (r : StringOrStructOrVec S V) :
  to_value (Er := Er) r
  = match r with
    | StringOrStructOrVec.String s => Ok (Value.String s)
    | StringOrStructOrVec.Struct x => to_value x
    | StringOrStructOrVec.Vec v => to_value v
    end.
Proof. destruct r; reflexivity. Qed.

Lemma to_value_SingleOrVec {S Er : Type} `{Serialize S} (r : SingleOrVec S) :
  to_value (Er := Er) r
  = match r with
    | SingleOrVec.Single x => to_value x
    | SingleOrVec.Vec xs => map_ok Value.Seq (serialize_elements xs)
    end.
Proof.
  destruct r as [x|xs]; [reflexivity|].
  cbv beta iota delta [to_value serialize Serialize_SingleOrVec Serialize_Vec map_ok].
  destruct (serialize_elements xs); reflexivity.
Qed.

(** Decoding a list of element encodings gives back the elements when each
    element round-trips. *)
Lemma collect_seq_serialize_elements {S E : Type} `{Deserialize S} `{Serialize S}
    `{Error E} (xs : list S) :
  Forall (fun x => exists v, to_value (Er := E) x = Ok v /\ deserialize S (Ok v) = Ok x) xs ->
  exists vs, serialize_elements (Er := E) xs = Ok vs /\
             collect_seq (fun v => deserialize S (ValueDeserializer_new v)) vs = Ok xs.
Proof.
  induction 1 as [|x xs (v & Hv & Hback) _ (vs & Hvs & Hcol)].
  - exists []. split; reflexivity.
  - exists (v :: vs). cbn [serialize_elements]. rewrite Hv, Hvs.
    split; [reflexivity|]. cbn [collect_seq]. unfold ValueDeserializer_new at 1.
    rewrite Hback, Hcol. reflexivity.
Qed.

(** Re-encoding decoded elements gives back the sequence when each element's
    decode re-encodes to itself. *)
Lemma serialize_elements_collect_seq {S E : Type} `{Deserialize S} `{Serialize S}
    `{Error E} (vs : list Value) (xs : list S) :
  (forall v x, deserialize S (E := E) (Ok v) = Ok x -> to_value (Er := E) x = Ok v) ->
  collect_seq (fun v => deserialize S (ValueDeserializer_new v)) vs = Ok xs ->
  serialize_elements (Er := E) xs = Ok vs.
Proof.
  intros Hinv. revert xs.
  induction vs as [|v vs IH]; intros xs Hcol; cbn [collect_seq] in Hcol.
  - inversion Hcol; reflexivity.
  - unfold ValueDeserializer_new at 1 in Hcol.
    destruct (deserialize S (Ok v)) as [x|e] eqn:Hx; [|discriminate Hcol].
    destruct (collect_seq _ vs) as [xs'|e] eqn:Hxs; [|discriminate Hcol].
    inversion Hcol; subst. cbn [serialize_elements].
    rewrite (Hinv _ _ Hx), (IH _ eq_refl). reflexivity.
Qed.

Section MoreDecode.
Context {S V : Type} `{dS : Deserialize S} `{dV : Deserialize V}.
Context {E : Type} `{HE : Error E}.

(** A successful [SingleOrVec<S>] decode is explained by the input's shape:
    [Vec] only from a sequence that [Vec<S>] decodes, [Single] only from a
    non-sequence that [S] decodes. *)
Theorem SingleOrVec_success_inversion (value : Value) :
  (forall xs, deserialize (SingleOrVec S) (Ok value) = Ok (SingleOrVec.Vec xs) ->
     exists vs, value = Value.Seq vs /\ deserialize (list S) (Ok (Value.Seq vs)) = Ok xs) /\
  (forall x, deserialize (SingleOrVec S) (Ok value) = Ok (SingleOrVec.Single x) ->
     (forall vs, value <> Value.Seq vs) /\ deserialize S (Ok value) = Ok x).
Proof.
  destruct (match value with Value.Seq vs => Some vs | _ => None end) as [vs|] eqn:Hshape.
  - destruct value; try discriminate Hshape. inversion Hshape; subst.
    rewrite SingleOrVec_on_seq. unfold map_ok.
    split; intros ? H; destruct (deserialize (list S) _) eqn:Hl;
      inversion H; subst; eauto.
  - assert (Hv : forall vs, value <> Value.Seq vs)
      by (intros vs ->; discriminate Hshape).
    rewrite (SingleOrVec_on_other value Hv). unfold map_ok.
    split; intros ? H; destruct (deserialize S _) eqn:Hs; inversion H; subst; auto.
Qed.

(** [StringOrStruct<S>] and the public [StringOrStructOrVec<S, S>] decoder
    agree: same result up to folding [Vec] into [Struct], except on a value
    of no accepted shape, where both fail with the shape mismatch and only
    the expectation text differs. *)
Theorem StringOrStruct_agrees_with_StringOrStructOrVec (deserializer : Deserializer E) :
  deserialize (StringOrStruct S) deserializer
  = map_ok merge_vec_into_struct (deserialize (StringOrStructOrVec S S) deserializer) \/
  (exists value, deserializer = Ok value /\ other_shape value /\
     deserialize (StringOrStructOrVec S S) deserializer
     = Err (invalid_type (unexpected value) "String, Struct or Vec") /\
     deserialize (StringOrStruct S) deserializer
     = Err (invalid_type (unexpected value) "String or Struct")).
Proof.
  rewrite StringOrStruct_as_merge, StringOrStructOrVec_deserialize.
  destruct deserializer as [value|e]; [|left; reflexivity].
  rewrite !dispatch_cases.
  destruct value; try (left; reflexivity);
    right; eexists; (split; [reflexivity|]);
    (split; [repeat split; intros; discriminate|]); split; reflexivity.
Qed.

End MoreDecode.

Lemma Vec_deserialize_seq {S E : Type} `{Deserialize S} `{Error E} (vs : list Value) :
  deserialize (list S) (E := E) (Ok (Value.Seq vs))
  = collect_seq (fun v => deserialize S (ValueDeserializer_new v)) vs.
Proof. reflexivity. Qed.

Section RoundTrips.
Context {S V : Type} `{dS : Deserialize S} `{dV : Deserialize V}.
Context `{sS : Serialize S} `{sV : Serialize V}.
Context {E : Type} `{HE : Error E}.

(** Encoding a [StringOrStructOrVec<S, V>] and decoding it back: a [String]
    always comes back; [Struct(x)] comes back when [x] encodes to a map that
    [S] reads back as [x]; [Vec(v)] comes back when [v] encodes to a
    sequence that [V] reads back as [v]; a [Struct] payload that encodes to a
    sequence is read back through [V], as the [Vec] variant. *)
Theorem StringOrStructOrVec_roundtrip :
  (forall s : string,
     deserialize (StringOrStructOrVec S V)
       (to_value (StringOrStructOrVec.String (S := S) (V := V) s))
     = Ok (StringOrStructOrVec.String s)) /\
  (forall (x : S) m,
     to_value (Er := E) x = Ok (Value.Map m) -> deserialize S (Ok (Value.Map m)) = Ok x ->
     deserialize (StringOrStructOrVec S V) (to_value (StringOrStructOrVec.Struct x))
     = Ok (StringOrStructOrVec.Struct x)) /\
  (forall (v : V) vs,
     to_value (Er := E) v = Ok (Value.Seq vs) -> deserialize V (Ok (Value.Seq vs)) = Ok v ->
     deserialize (StringOrStructOrVec S V) (to_value (StringOrStructOrVec.Vec v))
     = Ok (StringOrStructOrVec.Vec v)) /\
  (forall (x : S) vs,
     to_value (Er := E) x = Ok (Value.Seq vs) ->
     deserialize (StringOrStructOrVec S V) (to_value (StringOrStructOrVec.Struct x))
     = map_ok StringOrStructOrVec.Vec (deserialize V (Ok (Value.Seq vs)))).
Proof.
  split; [|split; [|split]].
  - intros s. reflexivity.
  - intros x m Hx Hback.
    rewrite to_value_StringOrStructOrVec, Hx, StringOrStructOrVec_deserialize,
      dispatch_map, Hback. reflexivity.
  - intros v vs Hv Hback.
    rewrite to_value_StringOrStructOrVec, Hv, StringOrStructOrVec_deserialize,
      dispatch_seq, Hback. reflexivity.
  - intros x vs Hx.
    rewrite to_value_StringOrStructOrVec, Hx, StringOrStructOrVec_deserialize,
      dispatch_seq. reflexivity.
Qed.

(** Encoding a [SingleOrVec<S>] and decoding it back: [Vec(xs)] comes back
    when every element round-trips; [Single(x)] comes back when [x] encodes
    to a non-sequence that [S] reads back as [x]; a [Single] payload that
    encodes to a sequence is read back as [Vec<S>], never as [Single]. *)
Theorem SingleOrVec_roundtrip :
  (forall xs : list S,
     Forall (fun x => exists v, to_value (Er := E) x = Ok v /\
                                deserialize S (Ok v) = Ok x) xs ->
     deserialize (SingleOrVec S) (to_value (SingleOrVec.Vec xs)) = Ok (SingleOrVec.Vec xs)) /\
  (forall (x : S) v,
     to_value (Er := E) x = Ok v -> (forall vs, v <> Value.Seq vs) ->
     deserialize S (Ok v) = Ok x ->
     deserialize (SingleOrVec S) (to_value (SingleOrVec.Single x)) = Ok (SingleOrVec.Single x)) /\
  (forall (x : S) vs,
     to_value (Er := E) x = Ok (Value.Seq vs) ->
     deserialize (SingleOrVec S) (to_value (SingleOrVec.Single x))
     = map_ok SingleOrVec.Vec (deserialize (list S) (Ok (Value.Seq vs)))).
Proof.
  split; [|split].
  - intros xs Hall.
    destruct (collect_seq_serialize_elements xs Hall) as (vs & Hvs & Hcol).
    rewrite to_value_SingleOrVec, Hvs. cbn [map_ok].
    rewrite SingleOrVec_on_seq, Vec_deserialize_seq, Hcol. reflexivity.
  - intros x v Hx Hv Hback.
    rewrite to_value_SingleOrVec, Hx, (SingleOrVec_on_other v Hv), Hback. reflexivity.
  - intros x vs Hx.
    rewrite to_value_SingleOrVec, Hx, SingleOrVec_on_seq. reflexivity.
Qed.

(** Decoding into [StringOrStructOrVec<S, V>] and encoding the result gives
    back the input value, provided [S] re-encodes the maps it decodes and [V]
    the sequences it decodes; the one exception is a byte string, which
    comes back as a string with the same bytes. *)
Theorem StringOrStructOrVec_decode_encode (value : Value)
    (r : StringOrStructOrVec S V) :
  (forall m x, deserialize S (Ok (Value.Map m)) = Ok x ->
     to_value (Er := E) x = Ok (Value.Map m)) ->
  (forall vs v, deserialize V (Ok (Value.Seq vs)) = Ok v ->
     to_value (Er := E) v = Ok (Value.Seq vs)) ->
  deserialize (StringOrStructOrVec S V) (Ok value) = Ok r ->
  to_value (Er := E) r
  = Ok (match value with
        | Value.Bytes b => Value.String (string_of_list_byte b)
        | _ => value
        end).
Proof.
  intros HS HV Hdec.
  destruct (StringOrStructOrVec_success_inversion (S := S) (V := V) value) as (Hstr & Hstruct & Hvec).
  rewrite to_value_StringOrStructOrVec.
  destruct r as [s|x|v].
  - destruct (Hstr s Hdec) as [->|(b & -> & Hb)]; [reflexivity|].
    unfold from_utf8 in Hb.
    destruct (utf8_valid _); inversion Hb; reflexivity.
  - destruct (Hstruct x Hdec) as (m & -> & Hm). exact (HS _ _ Hm).
  - destruct (Hvec v Hdec) as (vs & -> & Hvs). exact (HV _ _ Hvs).
Qed.

(** Decoding into [SingleOrVec<S>] and encoding the result gives back the
    input value, provided [S] re-encodes every value it decodes. *)
Theorem SingleOrVec_decode_encode (value : Value) (r : SingleOrVec S) :
  (forall v x, deserialize S (E := E) (Ok v) = Ok x -> to_value (Er := E) x = Ok v) ->
  deserialize (SingleOrVec S) (Ok value) = Ok r ->
  to_value (Er := E) r = Ok value.
Proof.
  intros HS Hdec.
  destruct (SingleOrVec_success_inversion (S := S) value) as (Hvec & Hsingle).
  rewrite to_value_SingleOrVec.
  destruct r as [x|xs].
  - destruct (Hsingle x Hdec) as (_ & Hx). exact (HS _ _ Hx).
  - destruct (Hvec xs Hdec) as (vs & -> & Hxs).
    rewrite Vec_deserialize_seq in Hxs.
    rewrite (serialize_elements_collect_seq vs xs HS Hxs). reflexivity.
Qed.

End RoundTrips.

Section CloneLaw.
Context {S V : Type} `{cS : Clone S} `{cV : Clone V}.

(** When the payloads' [clone] returns an equal value, so does [clone] on
    each of the three either-types. *)
Theorem clone_equal_when_payload_clone_equal :
  (forall x : S, clone x = x) -> (forall y : V, clone y = y) ->
  (forall a : StringOrStruct S, clone a = a) /\
  (forall b : StringOrStructOrVec S V, clone b = b) /\
  (forall c : SingleOrVec S, clone c = c).
Proof.
  intros HS HV. split; [|split].
  - intros []; cbn; rewrite ?HS; reflexivity.
  - intros []; cbn; rewrite ?HS, ?HV; reflexivity.
  - intros [x|xs]; cbn; [rewrite HS; reflexivity|].
    unfold clone at 1, Clone_Vec. rewrite (map_ext _ _ HS), map_id. reflexivity.
Qed.

End CloneLaw.

(** ** [Person] and [FromStr for Person] (tests/common/mod.rs) *)

Record Person : Type := { first_name : string; last_name : string }.

(** [PersonFromStrError { string }]: the field is named [err_string] here,
    as [string] names the type. *)
Record PersonFromStrError : Type := { err_string : string }.

(** [impl Display for PersonFromStrError] *)
Definition PersonFromStrError_fmt (e : PersonFromStrError) : string :=
  "Could not parse Person string: " ++ err_string e.

(** [s.split(c)] for an ASCII separator, collected: the pieces between
    separators, empty ones included.  A byte below 128 only occurs in UTF-8
    as that character, so splitting the bytes is splitting the text. *)
Fixpoint str_split (c : ascii) (s : string) : list string :=
  match s with
  | EmptyString => [EmptyString]
  | String a rest =>
    let parts := str_split c rest in
    if Ascii.eqb a c then EmptyString :: parts
    else match parts with
         | p :: ps => String a p :: ps
         | [] => [String a EmptyString]
         end
  end.

(** [impl FromStr for Person]: fewer than two pieces is an error carrying
    the input; otherwise the first and the last piece. *)
Definition Person_from_str (s : string) : result Person PersonFromStrError :=
  let parts := str_split " " s in
  if (List.length parts <? 2)%nat then Err {| err_string := s |}
  else Ok {| first_name := List.nth 0 parts EmptyString;
             last_name := List.last parts EmptyString |}.

Fixpoint count_char (c : ascii) (s : string) : nat :=
  match s with
  | EmptyString => 0
  | String a rest => (if Ascii.eqb a c then 1 else 0) + count_char c rest
  end.

Lemma str_split_nonempty (c : ascii) (s : string) : str_split c s <> [].
Proof.
  destruct s as [|a rest]; cbn; [discriminate|].
  destruct (Ascii.eqb a c); [discriminate|].
  destruct (str_split c rest); discriminate.
Qed.

Lemma str_split_length (c : ascii) (s : string) :
  List.length (str_split c s) = S (count_char c s).
Proof.
  induction s as [|a rest IH]; [reflexivity|]. cbn [str_split count_char].
  destruct (Ascii.eqb a c); cbn [List.length Nat.add].
  - rewrite IH. reflexivity.
  - pose proof (str_split_nonempty c rest) as Hne.
    destruct (str_split c rest); [contradiction|]. exact IH.
Qed.

Lemma str_split_pieces (c : ascii) (s : string) :
  Forall (fun p => count_char c p = 0%nat) (str_split c s).
Proof.
  induction s as [|a rest IH]; cbn [str_split]; [repeat constructor|].
  destruct (Ascii.eqb a c) eqn:Ha; [constructor; [reflexivity|exact IH]|].
  destruct (str_split c rest) as [|p ps]; [repeat constructor; cbn; rewrite Ha; reflexivity|].
  inversion IH as [|? ? Hp Hps]; subst.
  constructor; [cbn; rewrite Ha, Hp; reflexivity|exact Hps].
Qed.

Lemma concat_cons_char (sep : string) (a : ascii) (p : string) (ps : list string) :
  String.concat sep (String a p :: ps) = String a (String.concat sep (p :: ps)).
Proof. destruct ps; reflexivity. Qed.

(** Joining the pieces with the separator gives back the input. *)
Lemma str_split_concat (c : ascii) (s : string) :
  String.concat (String c EmptyString) (str_split c s) = s.
Proof.
  induction s as [|a rest IH]; [reflexivity|]. cbn [str_split].
  destruct (Ascii.eqb a c) eqn:Ha.
  - apply Ascii.eqb_eq in Ha. subst a.
    pose proof (str_split_nonempty c rest) as Hne.
    destruct (str_split c rest) as [|p ps]; [contradiction|].
    cbn [String.concat]. rewrite <- IH. reflexivity.
  - pose proof (str_split_nonempty c rest) as Hne.
    destruct (str_split c rest) as [|p ps]; [contradiction|].
    rewrite concat_cons_char, IH. reflexivity.
Qed.

Lemma string_app_empty_r (x : string) : x ++ EmptyString = x.
Proof. induction x as [|a x IH]; cbn; [reflexivity|]. rewrite IH. reflexivity. Qed.

Lemma string_app_assoc (x y z : string) : (x ++ y) ++ z = x ++ (y ++ z).
Proof. induction x as [|a x IH]; cbn; [reflexivity|]. rewrite IH. reflexivity. Qed.

(** A join of at least one piece ends with the last piece, after either
    nothing or something ending in the separator. *)
Lemma concat_ends_with_last (sep p : string) (ps : list string) :
  exists mid, String.concat sep (p :: ps) = mid ++ List.last (p :: ps) EmptyString /\
              (mid = EmptyString \/ exists m', mid = m' ++ sep).
Proof.
  revert p. induction ps as [|q qs IH]; intros p.
  - exists EmptyString. split; [reflexivity|left; reflexivity].
  - destruct (IH q) as (mid & Hmid & Hshape).
    exists (p ++ sep ++ mid). split.
    + change (String.concat sep (p :: q :: qs)) with (p ++ sep ++ String.concat sep (q :: qs)).
      rewrite Hmid. change (List.last (p :: q :: qs) EmptyString) with (List.last (q :: qs) EmptyString).
      rewrite !string_app_assoc. reflexivity.
    + right. destruct Hshape as [->|(m' & ->)].
      * exists p. rewrite string_app_empty_r. reflexivity.
      * exists (p ++ sep ++ m'). rewrite !string_app_assoc. reflexivity.
Qed.

Lemma last_In {A : Type} (x : A) (xs : list A) (d : A) :
  In (List.last (x :: xs) d) (x :: xs).
Proof.
  revert x. induction xs as [|y ys IH]; intros x; [left; reflexivity|].
  right. exact (IH y).
Qed.

(** [Person::from_str] fails exactly on a string without a space; the error
    then carries the whole input, and its message reads
    ["Could not parse Person string: "] followed by that input. *)
Theorem Person_from_str_fails_iff_no_space (s : string) :
  (count_char " " s = 0%nat -> Person_from_str s = Err {| err_string := s |}) /\
  (forall e, Person_from_str s = Err e ->
     count_char " " s = 0%nat /\ e = {| err_string := s |} /\
     PersonFromStrError_fmt e = "Could not parse Person string: " ++ s).
Proof.
  unfold Person_from_str. rewrite str_split_length.
  split.
  - intros ->. reflexivity.
  - intros e He.
    destruct (count_char " " s) as [|n]; [|discriminate He].
    inversion He; subst. split; [reflexivity|]. split; reflexivity.
Qed.

(** On success, [Person::from_str] takes the text before the first space as
    [first_name] and the text after the last space as [last_name]: neither
    holds a space, and the input is [first_name], a space, a middle part
    that is empty or ends in a space, then [last_name]. *)
Theorem Person_from_str_success (s : string) (p : Person) :
  Person_from_str s = Ok p ->
  count_char " " (first_name p) = 0%nat /\ count_char " " (last_name p) = 0%nat /\
  exists mid, s = first_name p ++ " " ++ mid ++ last_name p /\
              (mid = EmptyString \/ exists m', mid = m' ++ " ").
Proof.
  unfold Person_from_str. intros Hok.
  pose proof (str_split_pieces " " s) as Hpieces.
  pose proof (str_split_concat " " s) as Hconcat.
  destruct (str_split " " s) as [|p0 [|p1 ps]]; try discriminate Hok.
  cbn -[List.last] in Hok. injection Hok as <-. cbn [first_name last_name List.nth].
  rewrite Forall_forall in Hpieces.
  split; [apply Hpieces; left; reflexivity|].
  split; [apply Hpieces; exact (last_In p0 (p1 :: ps) EmptyString)|].
  destruct (concat_ends_with_last " " p1 ps) as (mid & Hmid & Hshape).
  exists mid. split; [|exact Hshape].
  rewrite <- Hconcat.
  change (String.concat " " (p0 :: p1 :: ps)) with (p0 ++ " " ++ String.concat " " (p1 :: ps)).
  rewrite Hmid. reflexivity.
Qed.

(** ** [serde_value::Value] as a payload: its [Deserialize] rebuilds the value
    its [ValueDeserializer] replays, and its [Serialize] drives the serializer
    with the value itself. *)
#[global] Instance Deserialize_Value : Deserialize Value :=
  fun E _ deserializer => Value_deserialize deserializer.

#[global] Instance Serialize_Value : Serialize Value :=
  fun O Er v serializer => serializer v.

(** ** Witnesses *)

Lemma StringOrStructOrVec_success_inversion_witness :
  deserialize (StringOrStructOrVec SimpleStruct (list SimpleStruct))
    (E := DeserializerError) (Ok struct_42)
  = Ok (StringOrStructOrVec.Struct simple_42) /\
  exists m, struct_42 = Value.Map m /\
            deserialize SimpleStruct (E := DeserializerError) (Ok (Value.Map m))
            = Ok simple_42.
Proof.
  assert (H : deserialize (StringOrStructOrVec SimpleStruct (list SimpleStruct))
                (E := DeserializerError) (Ok struct_42)
              = Ok (StringOrStructOrVec.Struct simple_42)) by reflexivity.
  split; [exact H|].
  exact (proj1 (proj2 (StringOrStructOrVec_success_inversion
                         (S := SimpleStruct) (V := list SimpleStruct)
                         (E := DeserializerError) struct_42)) _ H).
Defined.

Lemma SingleOrVec_success_inversion_witness :
  deserialize (SingleOrVec SimpleStruct) (E := DeserializerError)
    (Ok (Value.Seq [struct_42; struct_3]))
  = Ok (SingleOrVec.Vec [simple_42; simple_3]) /\
  exists vs, Value.Seq [struct_42; struct_3] = Value.Seq vs /\
             deserialize (list SimpleStruct) (E := DeserializerError) (Ok (Value.Seq vs))
             = Ok [simple_42; simple_3].
Proof.
  assert (H : deserialize (SingleOrVec SimpleStruct) (E := DeserializerError)
                (Ok (Value.Seq [struct_42; struct_3]))
              = Ok (SingleOrVec.Vec [simple_42; simple_3])) by reflexivity.
  split; [exact H|].
  exact (proj1 (SingleOrVec_success_inversion (S := SimpleStruct)
                  (E := DeserializerError) _) _ H).
Defined.

Lemma StringOrStructOrVec_roundtrip_witness :
  to_value (Er := DeserializerError) simple_42 = Ok simple_42_value /\
  deserialize (StringOrStructOrVec SimpleStruct (list SimpleStruct))
    (E := DeserializerError) (to_value (StringOrStructOrVec.Struct simple_42))
  = Ok (StringOrStructOrVec.Struct simple_42).
Proof.
  assert (H1 : to_value (Er := DeserializerError) simple_42 = Ok simple_42_value)
    by reflexivity.
  assert (H2 : deserialize SimpleStruct (E := DeserializerError) (Ok simple_42_value)
               = Ok simple_42) by reflexivity.
  split; [exact H1|].
  exact (proj1 (proj2 (StringOrStructOrVec_roundtrip (S := SimpleStruct)
                         (V := list SimpleStruct) (E := DeserializerError)))
           simple_42 _ H1 H2).
Defined.

Lemma SingleOrVec_roundtrip_witness :
  Forall (fun x => exists v, to_value (Er := DeserializerError) x = Ok v /\
                             deserialize SimpleStruct (Ok v) = Ok x)
    [simple_42; simple_3] /\
  deserialize (SingleOrVec SimpleStruct) (E := DeserializerError)
    (to_value (SingleOrVec.Vec [simple_42; simple_3]))
  = Ok (SingleOrVec.Vec [simple_42; simple_3]).
Proof.
  assert (H : Forall (fun x => exists v, to_value (Er := DeserializerError) x = Ok v /\
                                         deserialize SimpleStruct (Ok v) = Ok x)
                [simple_42; simple_3])
    by (repeat constructor; eexists; split; reflexivity).
  split; [exact H|].
  exact (proj1 (SingleOrVec_roundtrip (S := SimpleStruct) (E := DeserializerError)) _ H).
Defined.

(** A byte string decoded into [StringOrStructOrVec<String, String>] comes
    back from encoding as a string. *)
Lemma StringOrStructOrVec_decode_encode_witness :
  deserialize (StringOrStructOrVec string string) (E := DeserializerError)
    (Ok (Value.Bytes [Byte.x68; Byte.x69]))
  = Ok (StringOrStructOrVec.String "hi") /\
  to_value (Er := DeserializerError) (StringOrStructOrVec.String (S := string) (V := string) "hi")
  = Ok (Value.String "hi").
Proof.
  assert (HS : forall m (x : string),
            deserialize string (E := DeserializerError) (Ok (Value.Map m)) = Ok x ->
            to_value (Er := DeserializerError) x = Ok (Value.Map m))
    by (intros m x H; discriminate H).
  assert (HV : forall vs (v : string),
            deserialize string (E := DeserializerError) (Ok (Value.Seq vs)) = Ok v ->
            to_value (Er := DeserializerError) v = Ok (Value.Seq vs))
    by (intros vs v H; discriminate H).
  assert (Hdec : deserialize (StringOrStructOrVec string string) (E := DeserializerError)
                   (Ok (Value.Bytes [Byte.x68; Byte.x69]))
                 = Ok (StringOrStructOrVec.String "hi")) by reflexivity.
  split; [exact Hdec|].
  exact (StringOrStructOrVec_decode_encode _ _ HS HV Hdec).
Defined.

Lemma SingleOrVec_decode_encode_witness :
  deserialize (SingleOrVec Value) (E := DeserializerError)
    (Ok (Value.Seq [Value.U8 1; Value.Unit]))
  = Ok (SingleOrVec.Vec [Value.U8 1; Value.Unit]) /\
  to_value (Er := DeserializerError) (SingleOrVec.Vec [Value.U8 1; Value.Unit])
  = Ok (Value.Seq [Value.U8 1; Value.Unit]).
Proof.
  assert (HS : forall v (x : Value),
            deserialize Value (E := DeserializerError) (Ok v) = Ok x ->
            to_value (Er := DeserializerError) x = Ok v)
    by (intros v x H; inversion H; reflexivity).
  assert (Hdec : deserialize (SingleOrVec Value) (E := DeserializerError)
                   (Ok (Value.Seq [Value.U8 1; Value.Unit]))
                 = Ok (SingleOrVec.Vec [Value.U8 1; Value.Unit])) by reflexivity.
  split; [exact Hdec|].
  exact (SingleOrVec_decode_encode _ _ HS Hdec).
Defined.

Lemma clone_equal_when_payload_clone_equal_witness :
  clone (StringOrStructOrVec.Vec (S := string) "v") = StringOrStructOrVec.Vec "v" /\
  clone (SingleOrVec.Vec ["a"; "b"]) = SingleOrVec.Vec ["a"; "b"].
Proof.
  assert (H : forall x : string, clone x = x) by reflexivity.
  pose proof (clone_equal_when_payload_clone_equal (S := string) (V := string) H H) as P.
  split; [apply (proj1 (proj2 P)) | apply (proj2 (proj2 P))].
Defined.

Lemma Person_from_str_fails_iff_no_space_witness :
  count_char " " "Madonna" = 0%nat /\
  Person_from_str "Madonna" = Err {| err_string := "Madonna" |}.
Proof.
  assert (H : count_char " " "Madonna" = 0%nat) by reflexivity.
  split; [exact H|].
  exact (proj1 (Person_from_str_fails_iff_no_space "Madonna") H).
Defined.

Lemma Person_from_str_success_witness :
  Person_from_str "Michael J. Smith"
  = Ok {| first_name := "Michael"; last_name := "Smith" |} /\
  exists mid, "Michael J. Smith" = "Michael" ++ " " ++ mid ++ "Smith" /\
              (mid = EmptyString \/ exists m', mid = m' ++ " ").
Proof.
  assert (H : Person_from_str "Michael J. Smith"
              = Ok {| first_name := "Michael"; last_name := "Smith" |}) by reflexivity.
  split; [exact H|].
  exact (proj2 (proj2 (Person_from_str_success _ _ H))).
Defined.
